(** * TTFB attribution (src/attribution/onTTFB.ts)

    A shallow embedding of [attributeTTFB] and of the attribution-enabled
    [onTTFB] wrapper of the web-vitals library, with the properties of the
    attribution breakdown stated over it.

    Numbers: a JavaScript [number] is an IEEE binary64 value, and every
    subtraction rounds its exact result.  The function is embedded twice:
    - [attributeTTFB] computes on exact rationals ([Q]): [Math.max] is
      [Qmax], [-] is [Qminus].  It carries the properties that rounding does
      not touch: which fields are read and written, the clamps, the order of
      the start points, and the values on inputs where no rounding occurs.
    - [Rounded.attributeTTFB] takes the rounding as a parameter: [x - y] is
      [rnd (x - y)].  It carries the properties of sums, which rounding does
      touch.  [round64] is the rounding of binary64 (53 significant bits, to
      nearest, ties to even); overflow, [NaN] and the infinities are outside
      both models.
    An equation between numbers is stated with [==] (equality of
    rationals).  A property that may be [undefined] is an [option]. *)

From Stdlib Require Import ZArith QArith Qminmax Qround Qabs Qpower Qfield.
From Stdlib Require Import Lia Lqa List String SpecFloat.
From stdpp Require Import gmap.
Import ListNotations.

Local Open Scope Q_scope.

(** ** Data model *)

(** The navigation entry ([PerformanceNavigationTiming]); only the fields
    read by [attributeTTFB] are kept.  [activationStart] is missing in
    browsers without prerendering, hence the [option]. *)
Module NavEntry.
Record t : Type := mk {
  activationStart : option Q;
  domainLookupStart : Q;
  connectStart : Q;
  requestStart : Q
}.
End NavEntry.

(** The object literal assigned to [metric.attribution]. *)
Record TTFBAttribution : Type := mkAttribution {
  waitingTime : Q;
  dnsTime : Q;
  connectionTime : Q;
  requestTime : Q
}.

(** Modelled from the spec: the declarations of '../types.js' (the names a
    metric may carry and the navigation types) are not among the sources;
    the enumerations follow the data model of the specification. *)
Inductive MetricName : Type :=
  | CLS | FCP | FID | INP | LCP | TTFB.

Inductive NavigationType : Type :=
  | navigate | reload | back_forward_cache | prerender | restore | unknown.

(** Modelled from the spec: [TTFBMetricWithAttribution] of '../types.js'.
    A metric object as the unattributed [onTTFB] builds it has no
    [attribution] property yet ([None]); [attributeTTFB] assigns it.
    The data model makes [value] a non-negative number; the field is a
    [number] as in the code, and a theorem that needs [0 <= value] says
    so. *)
Module Metric.
Record t : Type := mk {
  name : MetricName;
  value : Q;
  delta : Q;
  id : string;
  entries : list NavEntry.t;
  navigationType : NavigationType;
  attribution : option TTFBAttribution
}.

(** [metric.attribution = a] *)
Definition set_attribution (a : TTFBAttribution) (metric : t) : t :=
  mk (name metric) (value metric) (delta metric) (id metric)
     (entries metric) (navigationType metric) (Some a).
End Metric.

(** ** attributeTTFB *)

(** [x || 0] on an optional number: [undefined] and [0] are falsy. *)
Definition or_zero (x : option Q) : Q :=
  match x with
  | None => 0
  | Some v => if Qeq_bool v 0 then 0 else v
  end.

(** [const activationStart = navEntry.activationStart || 0;] *)
Definition activationStart (navEntry : NavEntry.t) : Q :=
  or_zero (NavEntry.activationStart navEntry).

(** [const dnsStart = Math.max(0, navEntry.domainLookupStart - activationStart);] *)
Definition dnsStart (navEntry : NavEntry.t) : Q :=
  Qmax 0 (NavEntry.domainLookupStart navEntry - activationStart navEntry).

(** [const connectStart = Math.max(0, navEntry.connectStart - activationStart);] *)
Definition connectStart (navEntry : NavEntry.t) : Q :=
  Qmax 0 (NavEntry.connectStart navEntry - activationStart navEntry).

(** [const requestStart = Math.max(0, navEntry.requestStart - activationStart);] *)
Definition requestStart (navEntry : NavEntry.t) : Q :=
  Qmax 0 (NavEntry.requestStart navEntry - activationStart navEntry).

(** [attributeTTFB(metric)]: the function returns nothing and mutates its
    argument; the embedding returns the object after the call.
    [metric.entries.length] is truthy exactly on a non-empty array and
    [metric.entries[0]] is then its head. *)
Definition attributeTTFB (metric : Metric.t) : Metric.t :=
  match Metric.entries metric with
  | navEntry :: _ =>
      Metric.set_attribution
        {| waitingTime := dnsStart navEntry;
           dnsTime := connectStart navEntry - dnsStart navEntry;
           connectionTime := requestStart navEntry - connectStart navEntry;
           requestTime := Metric.value metric - requestStart navEntry |}
        metric
  | [] =>
      Metric.set_attribution
        {| waitingTime := 0;
           dnsTime := 0;
           connectionTime := 0;
           requestTime := 0 |}
        metric
  end.

(** Sample inputs: a navigation entry and a TTFB metric on its first
    report, before any attribution is attached. *)
Definition nav (act : option Q) (dns con req : Q) : NavEntry.t :=
  NavEntry.mk act dns con req.

Definition ttfb (v : Q) (es : list NavEntry.t) : Metric.t :=
  Metric.mk TTFB v v "v3-1-1" es navigate None.

(** ** The attribution-enabled onTTFB *)

(** Metric objects live in a store and are passed around by reference: the
    object the unattributed [onTTFB] builds is the one [attributeTTFB]
    mutates and the one [onReport] receives. *)
Definition Ref : Type := nat.

(** Modelled from the spec: [ReportOpts] of '../types.js' is not among the
    sources; the wrapper only passes [opts] on. *)
Record ReportOpts : Type := mkOpts {
  reportAllChanges : option bool
}.

Section Reporting.

(** The state of the code that registered [onReport]. *)
Variable U : Type.

(** [reports] is the history of the calls of [onReport]: the reference
    passed and the object behind it at the moment of the call. *)
Record World : Type := mkWorld {
  heap : gmap Ref Metric.t;
  user : U;
  reports : list (Ref * option Metric.t)
}.

Definition Eff (A : Type) : Type := World -> A * World.

Definition ret {A : Type} (a : A) : Eff A := fun w => (a, w).

Definition bind {A B : Type} (c : Eff A) (k : A -> Eff B) : Eff B :=
  fun w => let (a, w') := c w in k a w'.

Definition exec {A : Type} (c : Eff A) (w : World) : World := snd (c w).

#[global] Instance Eff_ret : MRet Eff := @ret.
#[global] Instance Eff_bind : MBind Eff := fun A B k c => bind c k.

(** The caller's callback: it reads and may change the metric objects and
    its own state. *)
Definition UserCallback : Type :=
  Ref -> gmap Ref Metric.t -> U -> gmap Ref Metric.t * U.

(** [onReport(metric)] *)
Definition call (onReport : UserCallback) (metric : Ref) : Eff unit :=
  fun w =>
    let (h, u) := onReport metric (heap w) (user w) in
    (tt, mkWorld h u (reports w ++ [(metric, heap w !! metric)])).

(** [attributeTTFB(metric)] on a reference: the object is updated in
    place. *)
Definition attributeTTFB_ref (metric : Ref) : Eff unit :=
  fun w =>
    (tt, mkWorld (alter attributeTTFB metric (heap w)) (user w) (reports w)).

(** A new object in the store. *)
Definition alloc (m : Metric.t) : Eff Ref :=
  fun w =>
    let r := fresh (dom (heap w)) in
    (r, mkWorld (<[r := m]> (heap w)) (user w) (reports w)).

(** What the page goes through: the metrics the recorder measures, one for
    each measurement cycle that is dispatched (the first navigation, then
    each restore from the back/forward cache). *)
Variable measured : option ReportOpts -> list Metric.t.

Fixpoint dispatch (callback : Ref -> Eff unit) (cycles : list Metric.t)
  : Eff unit :=
  match cycles with
  | [] => ret tt
  | m :: cycles' =>
      metric ← alloc m;
      callback metric;;
      dispatch callback cycles'
  end.

(** Modelled from the spec: [onTTFB] of '../onTTFB.js' (imported as
    [unattributedOnTTFB]) is not among the sources.  Following the
    specification of the recorder and of the dispatcher, it builds one
    metric object for each dispatched measurement cycle and invokes its
    callback on that object once. *)
Definition unattributedOnTTFB (callback : Ref -> Eff unit)
    (opts : option ReportOpts) : Eff unit :=
  dispatch callback (measured opts).

(** [onTTFB(onReport, opts)] *)
Definition onTTFB (onReport : UserCallback) (opts : option ReportOpts)
  : Eff unit :=
  unattributedOnTTFB
    (fun metric =>
       attributeTTFB_ref metric;;
       call onReport metric)
    opts.

(** A report carries an attribution when the object passed to [onReport]
    has its [attribution] property set. *)
Definition attributed (r : Ref * option Metric.t) : Prop :=
  exists m a, snd r = Some m /\ Metric.attribution m = Some a.

End Reporting.

Arguments mkWorld {U}.
Arguments heap {U}.
Arguments user {U}.
Arguments reports {U}.
Arguments ret {U A}.
Arguments bind {U A B}.
Arguments exec {U A}.
Arguments call {U}.
Arguments attributeTTFB_ref {U}.
Arguments alloc {U}.
Arguments dispatch {U}.
Arguments unattributedOnTTFB {U}.
Arguments onTTFB {U}.

(** A sample page life: a prerendered navigation, then one restore from
    the back/forward cache; and a callback that counts its calls. *)
Definition sample_page (opts : option ReportOpts) : list Metric.t :=
  [ttfb 20 [nav (Some 200) 200 205 210];
   Metric.mk TTFB 0 0 "v3-2-2" [] back_forward_cache None].

Definition counting : UserCallback nat := fun _ h u => (h, S u).

Definition start : World nat := mkWorld ∅ 0%nat [].

(** ** The activation offset in the words of the specification *)

(** "Returns the navigation entry's recorded activation offset, or 0 if
    the page was not prerendered." *)
Definition recordedOffset (navEntry : NavEntry.t) : Q :=
  match NavEntry.activationStart navEntry with
  | Some v => v
  | None => 0
  end.

(** An activation offset is a duration: the property is absent, or it is
    0 or positive.  Navigation entries carry no other value there. *)
Definition nonNegativeOffset (navEntry : NavEntry.t) : Prop :=
  match NavEntry.activationStart navEntry with
  | Some v => 0 <= v
  | None => True
  end.

(** ** attributeTTFB on rounded arithmetic *)

(** The same function, with the rounding of each subtraction written out.
    [Math.max(0, x)] returns one of its arguments and does not round; the
    object literal stores the rounded differences. *)
Module Rounded.
Section Arithmetic.

Variable rnd : Q -> Q.

(** [x - y] on numbers *)
Definition sub (x y : Q) : Q := rnd (x - y).


Definition dnsStart (navEntry : NavEntry.t) : Q :=
  Qmax 0 (sub (NavEntry.domainLookupStart navEntry) (activationStart navEntry)).

Definition connectStart (navEntry : NavEntry.t) : Q :=
  Qmax 0 (sub (NavEntry.connectStart navEntry) (activationStart navEntry)).

Definition requestStart (navEntry : NavEntry.t) : Q :=
  Qmax 0 (sub (NavEntry.requestStart navEntry) (activationStart navEntry)).

Definition attributeTTFB (metric : Metric.t) : Metric.t :=
  match Metric.entries metric with
  | navEntry :: _ =>
      Metric.set_attribution
        {| waitingTime := dnsStart navEntry;
           dnsTime := sub (connectStart navEntry) (dnsStart navEntry);
           connectionTime := sub (requestStart navEntry) (connectStart navEntry);
           requestTime := sub (Metric.value metric) (requestStart navEntry) |}
        metric
  | [] =>
      Metric.set_attribution
        {| waitingTime := 0;
           dnsTime := 0;
           connectionTime := 0;
           requestTime := 0 |}
        metric
  end.

End Arithmetic.
End Rounded.

(** ** The rounding of binary64 *)

(** The integer nearest to [q], the even one of the two when [q] is half
    way. *)
Definition round_half_even (q : Q) : Z :=
  let f := Qfloor q in
  match Qcompare (q - inject_Z f) (1 # 2) with
  | Lt => f
  | Gt => (f + 1)%Z
  | Eq => if Z.even f then f else (f + 1)%Z
  end.

(** The exponent [e] of a positive [x]: [2 ^ e <= x < 2 ^ (e + 1)]. *)
Definition binade (x : Q) : Z :=
  let k := (Z.log2 (Qnum x) - Z.log2 (Zpos (Qden x)))%Z in
  if Qle_bool (2 ^ k) x then k else (k - 1)%Z.

(** [x] rounded to 53 significant bits: the spacing of the doubles around
    [x] is [2 ^ (binade |x| - 52)].  The exponent is not bounded: the
    results agree with binary64 as long as nothing overflows (below the
    normal range a difference of two doubles is exact). *)
Definition round64 (x : Q) : Q :=
  if Qeq_bool x 0 then 0
  else
    let ulp := 2 ^ (binade (Qabs x) - 52) in
    Qred (inject_Z (round_half_even (x / ulp)) * ulp).

(** The relative error of one rounding, [2 ^ -53]. *)
Definition eps64 : Q := 1 # 9007199254740992.

(** The value of a finite binary64 number of the Standard Library's
    specification of IEEE arithmetic. *)
Definition SF2Q (f : spec_float) : option Q :=
  match f with
  | S754_zero _ => Some 0
  | S754_finite s m e =>
      Some (Qred ((if s then -1 else 1) * inject_Z (Zpos m) * 2 ^ e))
  | _ => None
  end.

(** Sample doubles: the numbers that the literals [10.1], [12.2], [15.3]
    and [50.4] denote, and a page that reached its first byte after 50.4
    ms. *)
Definition d10_1 : Q := round64 (101 # 10).
Definition d12_2 : Q := round64 (122 # 10).
Definition d15_3 : Q := round64 (153 # 10).
Definition d50_4 : Q := round64 (504 # 10).

Definition fractional : Metric.t :=
  ttfb d50_4 [nav (Some 0) d10_1 d12_2 d15_3].

(** ** Arithmetic of the clamp *)

Lemma clamp_cases (x : Q) :
  (0 < x /\ Qmax 0 x == x) \/ (x <= 0 /\ Qmax 0 x == 0).
Proof. exact (Q.max_spec 0 x). Qed.

Lemma clamp_nonneg (x : Q) : 0 <= Qmax 0 x.
Proof. apply Q.le_max_l. Qed.

Lemma clamp_monotone (x y : Q) : x <= y -> Qmax 0 x <= Qmax 0 y.
Proof.
  intros Hxy.
  destruct (clamp_cases x) as [[? ->] | [? ->]];
    destruct (clamp_cases y) as [[? ->] | [? ->]]; lra.
Qed.

(** Replaces every clamp of the goal by its two cases. *)
Ltac clamp_split :=
  repeat match goal with
  | |- context [Qmax 0 ?x] =>
      let c := fresh "c" in
      let Hc := fresh "Hc" in
      pose proof (clamp_cases x) as Hc;
      remember (Qmax 0 x) as c;
      match goal with H : c = Qmax 0 x |- _ => clear H end
  end.

Lemma or_zero_eq (x : option Q) :
  or_zero x == match x with Some v => v | None => 0 end.
Proof.
  destruct x as [v |]; simpl; [| reflexivity].
  destruct (Qeq_bool v 0) eqn:E; [| reflexivity].
  apply Qeq_bool_iff in E. symmetry. exact E.
Qed.

(** [attributeTTFB] always leaves an attribution on the object. *)
Lemma attributeTTFB_sets (metric : Metric.t) :
  exists a, Metric.attribution (attributeTTFB metric) = Some a.
Proof.
  unfold attributeTTFB.
  destruct (Metric.entries metric); simpl; eauto.
Qed.

(** ** Arithmetic of the rounding *)

Lemma round_half_even_error (q : Q) :
  Qabs (inject_Z (round_half_even q) - q) <= 1 # 2.
Proof.
  unfold round_half_even.
  pose proof (Qfloor_le q) as Hlo.
  pose proof (Qlt_floor q) as Hhi.
  rewrite inject_Z_plus in Hhi. change (inject_Z 1) with 1 in Hhi.
  apply Qabs_Qle_condition.
  destruct (Qcompare_spec (q - inject_Z (Qfloor q)) (1 # 2)) as [He | Hl | Hg].
  - destruct (Z.even (Qfloor q));
      rewrite ?inject_Z_plus; change (inject_Z 1) with 1; split; lra.
  - split; lra.
  - rewrite inject_Z_plus. change (inject_Z 1) with 1. split; lra.
Qed.

Lemma pow2_inject (n : Z) : (0 <= n)%Z -> 2 ^ n == inject_Z (2 ^ n).
Proof. intros Hn. rewrite Zpower_Qpower by exact Hn. reflexivity. Qed.

Lemma pow2_pos (n : Z) : 0 < 2 ^ n.
Proof. apply Qpower_0_lt. reflexivity. Qed.

(** The exponent that [binade] returns is the one of its argument. *)
Lemma binade_spec (x : Q) :
  0 < x -> 2 ^ binade x <= x /\ x < 2 ^ (binade x + 1).
Proof.
  intros Hx. unfold binade.
  set (a := Z.log2 (Qnum x)). set (b := Z.log2 (Zpos (Qden x))).
  assert (Hn : (0 < Qnum x)%Z).
  { unfold Qlt in Hx. simpl in Hx. lia. }
  destruct (Z.log2_spec (Qnum x) Hn) as [Ha Ha'].
  destruct (Z.log2_spec (Zpos (Qden x)) eq_refl) as [Hb Hb'].
  fold a in Ha, Ha'. fold b in Hb, Hb'.
  replace (Z.succ a) with (a + 1)%Z in Ha' by lia.
  replace (Z.succ b) with (b + 1)%Z in Hb' by lia.
  assert (Ha0 : (0 <= a)%Z) by apply Z.log2_nonneg.
  assert (Hb0 : (0 <= b)%Z) by apply Z.log2_nonneg.
  assert (HA : (0 < 2 ^ a)%Z) by (apply Z.pow_pos_nonneg; lia).
  assert (HB : (0 < 2 ^ b)%Z) by (apply Z.pow_pos_nonneg; lia).
  assert (HB' : (0 < 2 ^ (b + 1))%Z) by (apply Z.pow_pos_nonneg; lia).
  destruct (Qle_bool (2 ^ (a - b)) x) eqn:E.
  - apply Qle_bool_iff in E. split; [exact E |].
    replace (a - b + 1)%Z with (a + 1 - b)%Z by lia.
    rewrite Qpower_minus by (intros H; discriminate H).
    rewrite (pow2_inject (a + 1)), (pow2_inject b) by lia.
    apply Qlt_shift_div_l.
    + change 0 with (inject_Z 0). rewrite <- Zlt_Qlt. exact HB.
    + destruct x as [n dd]. simpl in *.
      unfold Qlt, Qmult, inject_Z. simpl. nia.
  - split.
    + replace (a - b - 1)%Z with (a - (b + 1))%Z by lia.
      rewrite Qpower_minus by (intros H; discriminate H).
      rewrite (pow2_inject a Ha0), (pow2_inject (b + 1)) by lia.
      apply Qle_shift_div_r.
      * change 0 with (inject_Z 0). rewrite <- Zlt_Qlt. exact HB'.
      * destruct x as [n dd]. simpl in *.
        unfold Qle, Qmult, inject_Z. simpl. nia.
    + replace (a - b - 1 + 1)%Z with (a - b)%Z by lia.
      apply Qnot_le_lt. intros H. apply Qle_bool_iff in H.
      rewrite H in E. discriminate E.
Qed.

(** One rounding moves a number by at most [2 ^ -53] of its size. *)
Lemma round64_error (x : Q) : Qabs (round64 x - x) <= eps64 * Qabs x.
Proof.
  unfold round64.
  destruct (Qeq_bool x 0) eqn:E.
  - apply Qeq_bool_iff in E. rewrite E. vm_compute. discriminate.
  - apply Qeq_bool_neq in E.
    assert (Hx : 0 < Qabs x).
    { pose proof (Qabs_nonneg x) as H0.
      destruct (Qlt_le_dec 0 (Qabs x)) as [H | H]; [exact H |].
      exfalso. apply E.
      assert (Hz : Qabs x == 0) by lra.
      revert Hz. apply Qabs_case; intros; lra. }
    destruct (binade_spec (Qabs x) Hx) as [HE _].
    set (e := binade (Qabs x)) in *.
    assert (Hu : 2 ^ (e - 52) == 2 ^ e * (1 # 4503599627370496)).
    { unfold Z.sub. rewrite Qpower_plus by (intros H; discriminate H).
      reflexivity. }
    pose proof (pow2_pos e) as He0.
    set (u := 2 ^ (e - 52)) in *.
    assert (Hu0 : 0 < u) by (rewrite Hu; nra).
    rewrite Qred_correct.
    pose proof (round_half_even_error (x / u)) as Hr.
    set (m := inject_Z (round_half_even (x / u))) in *.
    assert (Hd : m * u - x == u * (m - x / u)).
    { field. intros H. rewrite H in Hu0. revert Hu0. apply Qlt_irrefl. }
    rewrite Hd, Qabs_Qmult, (Qabs_pos u) by lra.
    unfold eps64.
    set (t := Qabs (m - x / u)) in *. set (ax := Qabs x) in *.
    nra.
Qed.

(** On the sample doubles [round64] gives what the subtraction of the
    Standard Library's specification of binary64 gives, for each of the
    differences that [attributeTTFB] takes. *)
Example round64_is_SFsub :
  let d := S754_finite false 5685794529555251 (-49) in
  let c := S754_finite false 6867989431740006 (-49) in
  let r := S754_finite false 8613134287346074 (-49) in
  let v := S754_finite false 7093169413108531 (-47) in
  SF2Q d = Some d10_1 /\
  SF2Q c = Some d12_2 /\
  SF2Q r = Some d15_3 /\
  SF2Q v = Some d50_4 /\
  SF2Q (SFsub 53 1024 d (S754_zero false)) = Some (round64 (d10_1 - 0)) /\
  SF2Q (SFsub 53 1024 c d) = Some (round64 (d12_2 - d10_1)) /\
  SF2Q (SFsub 53 1024 r c) = Some (round64 (d15_3 - d12_2)) /\
  SF2Q (SFsub 53 1024 v r) = Some (round64 (d50_4 - d15_3)).
Proof. repeat split; vm_compute; reflexivity. Qed.

(** Without rounding the second embedding is the first. *)
Lemma Rounded_exact (metric : Metric.t) :
  Rounded.attributeTTFB (fun x => x) metric = attributeTTFB metric.
Proof. reflexivity. Qed.

(** ** The breakdown and the metric's value *)




(** C2, as stated, fails: with [connectStart] before [domainLookupStart]
    the difference [dnsTime] is negative. *)
Lemma attributeTTFB_nonneg_counterexample :
  exists a,
    Metric.attribution
      (attributeTTFB (ttfb 50 [nav (Some 0) 10 5 15])) = Some a /\
    ~ (0 <= waitingTime a /\ 0 <= dnsTime a /\
       0 <= connectionTime a /\ 0 <= requestTime a).
Proof.
  eexists; split; [reflexivity |]. simpl.
  intros (_ & Hdns & _). revert Hdns. vm_compute. intros H. apply H. reflexivity.
Qed.

(** C2, amended: the clamp is on the three shifted start points, which are
    never negative; [waitingTime] is never negative, and each of the three
    differences is non-negative exactly when the clamped points it subtracts
    are in order.  With an empty entries list all four are 0. *)
Theorem attributeTTFB_nonneg_clamped (metric : Metric.t) :
  exists a,
    Metric.attribution (attributeTTFB metric) = Some a /\
    0 <= waitingTime a /\
    match Metric.entries metric with
    | [] =>
        0 <= dnsTime a /\ 0 <= connectionTime a /\ 0 <= requestTime a
    | navEntry :: _ =>
        0 <= dnsStart navEntry /\
        0 <= connectStart navEntry /\
        0 <= requestStart navEntry /\
        (0 <= dnsTime a <-> dnsStart navEntry <= connectStart navEntry) /\
        (0 <= connectionTime a <->
         connectStart navEntry <= requestStart navEntry) /\
        (0 <= requestTime a <-> requestStart navEntry <= Metric.value metric)
    end.
Proof.
  unfold attributeTTFB.
  destruct (Metric.entries metric) as [| navEntry rest]; simpl.
  - eexists; split; [reflexivity |]. simpl. repeat split; lra.
  - eexists; split; [reflexivity |]. simpl.
    unfold dnsStart, connectStart, requestStart.
    repeat split; try apply clamp_nonneg; intros; clamp_split; lra.
Qed.

(** C3: with an empty entries list the four components are exactly 0. *)
Theorem attributeTTFB_empty (metric : Metric.t) :
  Metric.entries metric = [] ->
  Metric.attribution (attributeTTFB metric)
  = Some {| waitingTime := 0; dnsTime := 0;
            connectionTime := 0; requestTime := 0 |}.
Proof.
  intros Hempty. unfold attributeTTFB. rewrite Hempty. reflexivity.
Qed.

Lemma attributeTTFB_empty_witness :
  Metric.attribution
    (attributeTTFB (Metric.mk TTFB 0 0 "v3-2-2" [] back_forward_cache None))
  = Some (mkAttribution 0 0 0 0).
Proof.
  apply (attributeTTFB_empty
           (Metric.mk TTFB 0 0 "v3-2-2" [] back_forward_cache None)).
  reflexivity.
Defined.

(** ** The two scenarios *)

(** C4: first entry with activationStart 0, domainLookupStart 10,
    connectStart 12, requestStart 15 and value 50 give the attribution
    (10, 2, 3, 35), whatever the other properties of the metric and the
    later entries are. *)
Theorem attributeTTFB_scenario_navigation
    (n : MetricName) (d : Q) (i : string) (rest : list NavEntry.t)
    (nt : NavigationType) (old : option TTFBAttribution) :
  Metric.attribution
    (attributeTTFB
       (Metric.mk n 50 d i (NavEntry.mk (Some 0) 10 12 15 :: rest) nt old))
  = Some {| waitingTime := 10; dnsTime := 2;
            connectionTime := 3; requestTime := 35 |}.
Proof. reflexivity. Qed.

(** C5: first entry with activationStart 200, domainLookupStart 200,
    connectStart 205, requestStart 210 and value 20: the shifted and clamped
    start points are 0, 5 and 10 and the attribution is (0, 5, 5, 10). *)
Theorem attributeTTFB_scenario_prerender
    (n : MetricName) (d : Q) (i : string) (rest : list NavEntry.t)
    (nt : NavigationType) (old : option TTFBAttribution) :
  let navEntry := NavEntry.mk (Some 200) 200 205 210 in
  dnsStart navEntry = 0 /\
  connectStart navEntry = 5 /\
  requestStart navEntry = 10 /\
  Metric.attribution
    (attributeTTFB (Metric.mk n 20 d i (navEntry :: rest) nt old))
  = Some {| waitingTime := 0; dnsTime := 5;
            connectionTime := 5; requestTime := 10 |}.
Proof. repeat split. Qed.

(** ** The activation offset *)

(** C6: the offset used for shifting is the recorded [activationStart] of
    the navigation entry when there is one, and 0 when it is absent or 0;
    it is non-negative in both cases, and the three start points are the
    raw timestamps shifted by it and clamped. *)
Theorem activationStart_recorded (navEntry : NavEntry.t) :
  nonNegativeOffset navEntry ->
  activationStart navEntry == recordedOffset navEntry /\
  (recordedOffset navEntry == 0 -> activationStart navEntry = 0) /\
  0 <= activationStart navEntry /\
  dnsStart navEntry
  == Qmax 0 (NavEntry.domainLookupStart navEntry - recordedOffset navEntry) /\
  connectStart navEntry
  == Qmax 0 (NavEntry.connectStart navEntry - recordedOffset navEntry) /\
  requestStart navEntry
  == Qmax 0 (NavEntry.requestStart navEntry - recordedOffset navEntry).
Proof.
  unfold nonNegativeOffset, recordedOffset.
  unfold dnsStart, connectStart, requestStart, activationStart.
  pose proof (or_zero_eq (NavEntry.activationStart navEntry)) as Hoff.
  destruct (NavEntry.activationStart navEntry) as [v |]; intros Hv.
  - split; [exact Hoff |]. split.
    + intros Hz. simpl. apply Qeq_bool_iff in Hz. rewrite Hz. reflexivity.
    + split; [rewrite Hoff; exact Hv |].
      rewrite Hoff. repeat split; reflexivity.
  - simpl. repeat split; try reflexivity. apply Qle_refl.
Qed.

Lemma activationStart_recorded_witness :
  activationStart (nav (Some 200) 200 205 210) == 200 /\
  (200 == 0 -> activationStart (nav (Some 200) 200 205 210) = 0) /\
  0 <= activationStart (nav (Some 200) 200 205 210) /\
  dnsStart (nav (Some 200) 200 205 210) == Qmax 0 (200 - 200) /\
  connectStart (nav (Some 200) 200 205 210) == Qmax 0 (205 - 200) /\
  requestStart (nav (Some 200) 200 205 210) == Qmax 0 (210 - 200).
Proof.
  apply (activationStart_recorded (nav (Some 200) 200 205 210)).
  vm_compute. discriminate.
Defined.

(** ** What the attribution depends on *)

(** C8: two metrics with the same value and the same first entry get the
    same attribution, whatever their later entries. *)
Theorem attributeTTFB_first_entry
    (m1 m2 : Metric.t) (navEntry : NavEntry.t) (rest1 rest2 : list NavEntry.t) :
  Metric.entries m1 = navEntry :: rest1 ->
  Metric.entries m2 = navEntry :: rest2 ->
  Metric.value m1 = Metric.value m2 ->
  Metric.attribution (attributeTTFB m1)
  = Metric.attribution (attributeTTFB m2).
Proof.
  intros H1 H2 Hv. unfold attributeTTFB.
  rewrite H1, H2. simpl. rewrite Hv. reflexivity.
Qed.

Lemma attributeTTFB_first_entry_witness :
  Metric.attribution
    (attributeTTFB (ttfb 50 [nav (Some 0) 10 12 15]))
  = Metric.attribution
      (attributeTTFB
         (Metric.mk TTFB 50 7 "v3-9-9"
            [nav (Some 0) 10 12 15; nav None 1 2 3; nav (Some 4) 40 30 20]
            reload None)).
Proof.
  apply (attributeTTFB_first_entry
           (ttfb 50 [nav (Some 0) 10 12 15])
           (Metric.mk TTFB 50 7 "v3-9-9"
              [nav (Some 0) 10 12 15; nav None 1 2 3; nav (Some 4) 40 30 20]
              reload None)
           (nav (Some 0) 10 12 15) []
           [nav None 1 2 3; nav (Some 4) 40 30 20]);
    reflexivity.
Defined.

(** C9: [attributeTTFB] changes no property of the metric other than
    [attribution]. *)
Theorem attributeTTFB_frame (metric : Metric.t) :
  Metric.name (attributeTTFB metric) = Metric.name metric /\
  Metric.value (attributeTTFB metric) = Metric.value metric /\
  Metric.delta (attributeTTFB metric) = Metric.delta metric /\
  Metric.id (attributeTTFB metric) = Metric.id metric /\
  Metric.entries (attributeTTFB metric) = Metric.entries metric /\
  Metric.navigationType (attributeTTFB metric) = Metric.navigationType metric.
Proof.
  unfold attributeTTFB.
  destruct (Metric.entries metric) eqn:E; simpl; rewrite ?E; repeat split.
Qed.

(** ** Ordered timestamps *)

(** C10: for raw timestamps in chronological order and a value that is at
    least [requestStart - activationStart], [dnsTime], [connectionTime] and
    [requestTime] are non-negative, since the shift and clamp is monotone.
    The value of a metric is non-negative, as the data model has it. *)
Theorem attributeTTFB_ordered
    (metric : Metric.t) (navEntry : NavEntry.t) (rest : list NavEntry.t) :
  Metric.entries metric = navEntry :: rest ->
  NavEntry.domainLookupStart navEntry <= NavEntry.connectStart navEntry ->
  NavEntry.connectStart navEntry <= NavEntry.requestStart navEntry ->
  NavEntry.requestStart navEntry - activationStart navEntry
  <= Metric.value metric ->
  0 <= Metric.value metric ->
  exists a,
    Metric.attribution (attributeTTFB metric) = Some a /\
    0 <= dnsTime a /\ 0 <= connectionTime a /\ 0 <= requestTime a.
Proof.
  intros He Hdc Hcr Hv Hv0. unfold attributeTTFB. rewrite He. simpl.
  eexists; split; [reflexivity |]. simpl.
  unfold dnsStart, connectStart, requestStart.
  set (offset := activationStart navEntry) in *.
  assert (Hdc' : NavEntry.domainLookupStart navEntry - offset
                 <= NavEntry.connectStart navEntry - offset) by lra.
  assert (Hcr' : NavEntry.connectStart navEntry - offset
                 <= NavEntry.requestStart navEntry - offset) by lra.
  apply clamp_monotone in Hdc'. apply clamp_monotone in Hcr'.
  destruct (clamp_cases (NavEntry.requestStart navEntry - offset))
    as [[_ Hr] | [_ Hr]];
    repeat split; lra.
Qed.

Lemma attributeTTFB_ordered_witness :
  exists a,
    Metric.attribution
      (attributeTTFB (ttfb 20 [nav (Some 200) 200 205 210])) = Some a /\
    0 <= dnsTime a /\ 0 <= connectionTime a /\ 0 <= requestTime a.
Proof.
  apply (attributeTTFB_ordered
           (ttfb 20 [nav (Some 200) 200 205 210])
           (nav (Some 200) 200 205 210) []);
    [reflexivity | vm_compute; discriminate ..].
Defined.

(** ** Reports of the attribution-enabled onTTFB *)

Section ReportingFacts.

Context {U : Type}.
Variable onReport : UserCallback U.

Lemma exec_bind {A B : Type} (c : Eff U A) (k : A -> Eff U B) (w : World U) :
  exec (c ≫= k) w = exec (k (fst (c w))) (snd (c w)).
Proof.
  cbv [exec mbind Eff_bind bind]. destruct (c w) as [a w']. reflexivity.
Qed.

(** One cycle: the object handed to [onReport] is the measured metric with
    its attribution attached, and the history grows by that one call. *)
Lemma cycle_report (m : Metric.t) (w : World U) :
  reports
    (exec (attributeTTFB_ref (fst (alloc m w));;
           call onReport (fst (alloc m w)))
       (snd (alloc m w)))
  = reports w ++ [(fst (alloc m w), Some (attributeTTFB m))].
Proof.
  rewrite exec_bind. cbv [exec alloc attributeTTFB_ref call]. simpl.
  destruct (onReport _ _ _) as [h u]. simpl.
  rewrite lookup_alter_eq, lookup_insert_eq. reflexivity.
Qed.

Lemma dispatch_reports (cycles : list Metric.t) :
  forall w : World U,
  exists news,
    reports
      (exec (dispatch
               (fun metric => attributeTTFB_ref metric;; call onReport metric)
               cycles) w)
    = reports w ++ news /\
    map snd news = map (fun m => Some (attributeTTFB m)) cycles.
Proof.
  induction cycles as [| m cycles IH]; intros w.
  - exists []. simpl. rewrite app_nil_r. split; reflexivity.
  - simpl dispatch. rewrite !exec_bind.
    match goal with
    | |- context [exec (dispatch _ cycles) ?w1] =>
        destruct (IH w1) as (news & Hnews & Hsnd)
    end.
    exists ((fst (alloc m w), Some (attributeTTFB m)) :: news). split.
    + rewrite Hnews.
      change (snd (?c ?w')) with (exec c w').
      rewrite cycle_report, <- app_assoc. reflexivity.
    + simpl. rewrite Hsnd. reflexivity.
Qed.

(** The in-place update touches the object behind the reference and
    nothing else. *)
Lemma attributeTTFB_ref_frame (metric other : Ref) (w : World U) :
  metric <> other ->
  heap (exec (attributeTTFB_ref metric) w) !! other = heap w !! other /\
  user (exec (attributeTTFB_ref metric) w) = user w /\
  reports (exec (attributeTTFB_ref metric) w) = reports w.
Proof.
  intros Hne. cbv [exec attributeTTFB_ref]. simpl.
  rewrite lookup_alter_ne by exact Hne. repeat split.
Qed.

End ReportingFacts.

(** C7: [onReport] is called once for each dispatched measurement cycle, in
    order, and the object it receives is, at the moment of the call, the
    measured metric after [attributeTTFB]: its attribution is set. *)
Theorem onTTFB_reports_attributed
    (U : Type) (measured : option ReportOpts -> list Metric.t)
    (onReport : UserCallback U) (opts : option ReportOpts) (w : World U) :
  exists news,
    reports (exec (onTTFB measured onReport opts) w) = reports w ++ news /\
    length news = length (measured opts) /\
    map snd news = map (fun m => Some (attributeTTFB m)) (measured opts) /\
    Forall attributed news.
Proof.
  unfold onTTFB, unattributedOnTTFB.
  destruct (dispatch_reports onReport (measured opts) w)
    as (news & Hnews & Hsnd).
  exists news. split; [exact Hnews |]. split; [| split; [exact Hsnd |]].
  - rewrite <- (length_map snd news), Hsnd, length_map. reflexivity.
  - clear Hnews. revert Hsnd. generalize (measured opts) as cycles.
    induction news as [| [r o] news IH]; intros cycles Hsnd; constructor.
    + destruct cycles as [| m cycles]; [discriminate Hsnd |].
      injection Hsnd as Ho _. simpl in Ho. subst o.
      destruct (attributeTTFB_sets m) as [a Ha].
      exists (attributeTTFB m), a. split; [reflexivity | exact Ha].
    + destruct cycles as [| m cycles]; [discriminate Hsnd |].
      injection Hsnd as _ Hrest. exact (IH cycles Hrest).
Qed.

(** The sample page: two cycles, two calls, both with an attribution. *)
Example sample_run :
  map snd (reports (exec (onTTFB sample_page counting None) start))
  = [Some (Metric.mk TTFB 20 20 "v3-1-1" [nav (Some 200) 200 205 210]
             navigate (Some (mkAttribution 0 5 5 10)));
     Some (Metric.mk TTFB 0 0 "v3-2-2" [] back_forward_cache
             (Some (mkAttribution 0 0 0 0)))] /\
  user (exec (onTTFB sample_page counting None) start) = 2%nat.
Proof. split; vm_compute; reflexivity. Qed.

(** ** Further properties of attributeTTFB *)

(** X1: with an empty entries list the four components sum to 0: they sum
    to the value when the value is 0 and only then. *)
Theorem attributeTTFB_total_empty_iff (rnd : Q -> Q) (metric : Metric.t) :
  Metric.entries metric = [] ->
  exists a,
    Metric.attribution (Rounded.attributeTTFB rnd metric) = Some a /\
    (waitingTime a + dnsTime a + connectionTime a + requestTime a
     == Metric.value metric
     <-> Metric.value metric == 0).
Proof.
  intros He. unfold Rounded.attributeTTFB. rewrite He.
  eexists; split; [reflexivity |].
  cbn [waitingTime dnsTime connectionTime requestTime].
  split; intros H; lra.
Qed.

Lemma attributeTTFB_total_empty_iff_witness :
  exists a,
    Metric.attribution
      (Rounded.attributeTTFB round64
         (Metric.mk TTFB 5 5 "v3-2-2" [] back_forward_cache None)) = Some a /\
    (waitingTime a + dnsTime a + connectionTime a + requestTime a == 5
     <-> 5 == 0).
Proof.
  apply (attributeTTFB_total_empty_iff round64
           (Metric.mk TTFB 5 5 "v3-2-2" [] back_forward_cache None)).
  reflexivity.
Defined.

(** X2: the running sums of the breakdown are the clamped start points up
    to the rounding of the differences: [waitingTime] is [dnsStart],
    [waitingTime + dnsTime] is within [eps * |connectStart - dnsStart|] of
    [connectStart], and [waitingTime + dnsTime + connectionTime] is within
    [eps * (|connectStart - dnsStart| + |requestStart - connectStart|)] of
    [requestStart], when one rounding has a relative error of at most
    [eps]. *)
Theorem attributeTTFB_running_sums_rounded
    (rnd : Q -> Q) (eps : Q) (metric : Metric.t)
    (navEntry : NavEntry.t) (rest : list NavEntry.t) :
  (forall x, Qabs (rnd x - x) <= eps * Qabs x) ->
  Metric.entries metric = navEntry :: rest ->
  exists a,
    Metric.attribution (Rounded.attributeTTFB rnd metric) = Some a /\
    waitingTime a = Rounded.dnsStart rnd navEntry /\
    Qabs (waitingTime a + dnsTime a - Rounded.connectStart rnd navEntry)
    <= eps * Qabs (Rounded.connectStart rnd navEntry
                   - Rounded.dnsStart rnd navEntry) /\
    Qabs (waitingTime a + dnsTime a + connectionTime a
          - Rounded.requestStart rnd navEntry)
    <= eps * (Qabs (Rounded.connectStart rnd navEntry
                    - Rounded.dnsStart rnd navEntry)
              + Qabs (Rounded.requestStart rnd navEntry
                      - Rounded.connectStart rnd navEntry)).
Proof.
  intros Hrnd He. unfold Rounded.attributeTTFB. rewrite He.
  eexists; split; [reflexivity |].
  cbn [waitingTime dnsTime connectionTime requestTime]. unfold Rounded.sub.
  set (d := Rounded.dnsStart rnd navEntry).
  set (c := Rounded.connectStart rnd navEntry).
  set (r := Rounded.requestStart rnd navEntry).
  pose proof (Hrnd (c - d)) as H1.
  pose proof (Hrnd (r - c)) as H2.
  apply Qabs_Qle_condition in H1, H2.
  set (A1 := Qabs (c - d)) in *.
  set (A2 := Qabs (r - c)) in *.
  split; [reflexivity |].
  split; apply (proj2 (Qabs_Qle_condition _ _)); split; nra.
Qed.

Lemma attributeTTFB_running_sums_rounded_witness :
  exists a,
    Metric.attribution (Rounded.attributeTTFB round64 fractional) = Some a /\
    waitingTime a
    = Rounded.dnsStart round64 (nav (Some 0) d10_1 d12_2 d15_3) /\
    Qabs (waitingTime a + dnsTime a
          - Rounded.connectStart round64 (nav (Some 0) d10_1 d12_2 d15_3))
    <= eps64 *
       Qabs (Rounded.connectStart round64 (nav (Some 0) d10_1 d12_2 d15_3)
             - Rounded.dnsStart round64 (nav (Some 0) d10_1 d12_2 d15_3)) /\
    Qabs (waitingTime a + dnsTime a + connectionTime a
          - Rounded.requestStart round64 (nav (Some 0) d10_1 d12_2 d15_3))
    <= eps64 *
       (Qabs (Rounded.connectStart round64 (nav (Some 0) d10_1 d12_2 d15_3)
              - Rounded.dnsStart round64 (nav (Some 0) d10_1 d12_2 d15_3))
        + Qabs (Rounded.requestStart round64 (nav (Some 0) d10_1 d12_2 d15_3)
                - Rounded.connectStart round64
                    (nav (Some 0) d10_1 d12_2 d15_3))).
Proof.
  apply (attributeTTFB_running_sums_rounded round64 eps64 fractional
           (nav (Some 0) d10_1 d12_2 d15_3) []).
  - exact round64_error.
  - reflexivity.
Defined.



(** X4: when DNS lookup, connection and request all started before the
    activation of a prerendered page, the three start points clamp to 0:
    [waitingTime], [dnsTime] and [connectionTime] are 0 and the whole value
    goes to [requestTime]. *)
Theorem attributeTTFB_before_activation
    (metric : Metric.t) (navEntry : NavEntry.t) (rest : list NavEntry.t) :
  Metric.entries metric = navEntry :: rest ->
  NavEntry.domainLookupStart navEntry <= activationStart navEntry ->
  NavEntry.connectStart navEntry <= activationStart navEntry ->
  NavEntry.requestStart navEntry <= activationStart navEntry ->
  exists a,
    Metric.attribution (attributeTTFB metric) = Some a /\
    waitingTime a == 0 /\
    dnsTime a == 0 /\
    connectionTime a == 0 /\
    requestTime a == Metric.value metric.
Proof.
  intros He Hd Hc Hr. unfold attributeTTFB. rewrite He. simpl.
  eexists; split; [reflexivity |]. simpl.
  unfold dnsStart, connectStart, requestStart.
  clamp_split. repeat split; lra.
Qed.

Lemma attributeTTFB_before_activation_witness :
  exists a,
    Metric.attribution
      (attributeTTFB (ttfb 20 [nav (Some 300) 200 205 210])) = Some a /\
    waitingTime a == 0 /\
    dnsTime a == 0 /\
    connectionTime a == 0 /\
    requestTime a == 20.
Proof.
  apply (attributeTTFB_before_activation
           (ttfb 20 [nav (Some 300) 200 205 210])
           (nav (Some 300) 200 205 210) []);
    [reflexivity | vm_compute; discriminate ..].
Defined.

(** X5: the breakdown depends on the timestamps only relative to the
    activation: moving the three raw timestamps and the offset of the first
    entry by the same amount leaves the four components unchanged. *)
Theorem attributeTTFB_shift
    (m1 m2 : Metric.t) (e1 e2 : NavEntry.t) (rest1 rest2 : list NavEntry.t)
    (c : Q) :
  Metric.entries m1 = e1 :: rest1 ->
  Metric.entries m2 = e2 :: rest2 ->
  Metric.value m2 == Metric.value m1 ->
  activationStart e2 == activationStart e1 + c ->
  NavEntry.domainLookupStart e2 == NavEntry.domainLookupStart e1 + c ->
  NavEntry.connectStart e2 == NavEntry.connectStart e1 + c ->
  NavEntry.requestStart e2 == NavEntry.requestStart e1 + c ->
  exists a1 a2,
    Metric.attribution (attributeTTFB m1) = Some a1 /\
    Metric.attribution (attributeTTFB m2) = Some a2 /\
    waitingTime a2 == waitingTime a1 /\
    dnsTime a2 == dnsTime a1 /\
    connectionTime a2 == connectionTime a1 /\
    requestTime a2 == requestTime a1.
Proof.
  intros H1 H2 Hv Ha Hd Hc Hr. unfold attributeTTFB. rewrite H1, H2. simpl.
  do 2 eexists. split; [reflexivity |]. split; [reflexivity |]. simpl.
  unfold dnsStart, connectStart, requestStart.
  assert (Ed : NavEntry.domainLookupStart e2 - activationStart e2
               == NavEntry.domainLookupStart e1 - activationStart e1) by lra.
  assert (Ec : NavEntry.connectStart e2 - activationStart e2
               == NavEntry.connectStart e1 - activationStart e1) by lra.
  assert (Er : NavEntry.requestStart e2 - activationStart e2
               == NavEntry.requestStart e1 - activationStart e1) by lra.
  rewrite Ed, Ec, Er, Hv. repeat split; reflexivity.
Qed.

Lemma attributeTTFB_shift_witness :
  exists a1 a2,
    Metric.attribution
      (attributeTTFB (ttfb 50 [nav (Some 0) 10 12 15])) = Some a1 /\
    Metric.attribution
      (attributeTTFB (ttfb 50 [nav (Some 200) 210 212 215])) = Some a2 /\
    waitingTime a2 == waitingTime a1 /\
    dnsTime a2 == dnsTime a1 /\
    connectionTime a2 == connectionTime a1 /\
    requestTime a2 == requestTime a1.
Proof.
  apply (attributeTTFB_shift
           (ttfb 50 [nav (Some 0) 10 12 15])
           (ttfb 50 [nav (Some 200) 210 212 215])
           (nav (Some 0) 10 12 15) (nav (Some 200) 210 212 215) [] [] 200);
    reflexivity.
Defined.

(** X6: the attribution is overwritten, not merged: what [attributeTTFB]
    leaves does not depend on an attribution the object already carried, and
    a second call changes nothing. *)
Theorem attributeTTFB_overwrites (metric : Metric.t) (stale : TTFBAttribution) :
  attributeTTFB (Metric.set_attribution stale metric) = attributeTTFB metric /\
  attributeTTFB (attributeTTFB metric) = attributeTTFB metric.
Proof.
  unfold attributeTTFB.
  destruct (Metric.entries metric) as [| navEntry rest] eqn:E;
    simpl; rewrite ?E; split; reflexivity.
Qed.

(** X7: an [activationStart] that is absent and one that is recorded as 0
    are not told apart: the two entries get the same attribution. *)
Theorem attributeTTFB_falsy_activationStart
    (n : MetricName) (v d : Q) (i : string) (rest : list NavEntry.t)
    (nt : NavigationType) (old : option TTFBAttribution)
    (zero dns con req : Q) :
  zero == 0 ->
  Metric.attribution
    (attributeTTFB
       (Metric.mk n v d i (NavEntry.mk (Some zero) dns con req :: rest) nt old))
  = Metric.attribution
      (attributeTTFB
         (Metric.mk n v d i (NavEntry.mk None dns con req :: rest) nt old)).
Proof.
  intros Hz. apply Qeq_bool_iff in Hz.
  unfold attributeTTFB, dnsStart, connectStart, requestStart, activationStart.
  simpl. rewrite Hz. reflexivity.
Qed.

Lemma attributeTTFB_falsy_activationStart_witness :
  Metric.attribution
    (attributeTTFB
       (Metric.mk TTFB 50 50 "v3-1-1" [NavEntry.mk (Some 0) 10 12 15]
          navigate None))
  = Metric.attribution
      (attributeTTFB
         (Metric.mk TTFB 50 50 "v3-1-1" [NavEntry.mk None 10 12 15]
            navigate None)).
Proof.
  apply (attributeTTFB_falsy_activationStart
           TTFB 50 50 "v3-1-1" [] navigate None 0 10 12 15).
  reflexivity.
Defined.

(** X8: for raw timestamps in chronological order and a value that is
    non-negative and at least [requestStart - activationStart], each of the
    four components lies between 0 and the value. *)
Theorem attributeTTFB_within_value
    (metric : Metric.t) (navEntry : NavEntry.t) (rest : list NavEntry.t) :
  Metric.entries metric = navEntry :: rest ->
  NavEntry.domainLookupStart navEntry <= NavEntry.connectStart navEntry ->
  NavEntry.connectStart navEntry <= NavEntry.requestStart navEntry ->
  NavEntry.requestStart navEntry - activationStart navEntry
  <= Metric.value metric ->
  0 <= Metric.value metric ->
  exists a,
    Metric.attribution (attributeTTFB metric) = Some a /\
    0 <= waitingTime a <= Metric.value metric /\
    0 <= dnsTime a <= Metric.value metric /\
    0 <= connectionTime a <= Metric.value metric /\
    0 <= requestTime a <= Metric.value metric.
Proof.
  intros He Hdc Hcr Hv Hv0. unfold attributeTTFB. rewrite He. simpl.
  eexists; split; [reflexivity |]. simpl.
  unfold dnsStart, connectStart, requestStart.
  clamp_split. repeat split; lra.
Qed.

Lemma attributeTTFB_within_value_witness :
  exists a,
    Metric.attribution
      (attributeTTFB (ttfb 20 [nav (Some 200) 200 205 210])) = Some a /\
    0 <= waitingTime a <= 20 /\
    0 <= dnsTime a <= 20 /\
    0 <= connectionTime a <= 20 /\
    0 <= requestTime a <= 20.
Proof.
  apply (attributeTTFB_within_value
           (ttfb 20 [nav (Some 200) 200 205 210])
           (nav (Some 200) 200 205 210) []);
    [reflexivity | vm_compute; discriminate ..].
Defined.

(** ** Further properties of the attribution-enabled onTTFB *)

Section WrapperFacts.

Context {U : Type}.
Variable onReport : UserCallback U.

(** Building the object and attributing it in place is building the
    attributed object. *)
Lemma alloc_attribute (m : Metric.t) (w : World U) :
  (metric ← alloc m; attributeTTFB_ref metric;; ret metric) w
  = alloc (attributeTTFB m) w.
Proof.
  cbv [mbind Eff_bind bind alloc attributeTTFB_ref ret]. simpl.
  rewrite alter_insert_eq. reflexivity.
Qed.

Lemma dispatch_attributed_cycles (cycles : list Metric.t) :
  forall w : World U,
  dispatch (fun metric => attributeTTFB_ref metric;; call onReport metric)
    cycles w
  = dispatch (call onReport) (map attributeTTFB cycles) w.
Proof.
  induction cycles as [| m cycles IH]; intros w; [reflexivity |].
  simpl dispatch.
  pose proof (alloc_attribute m w) as Ha. revert Ha.
  cbv [mbind Eff_bind bind ret].
  destruct (alloc m w) as [r w1].
  destruct (attributeTTFB_ref r w1) as [[] w2].
  intros <-.
  destruct (call onReport r w2) as [[] w3].
  apply IH.
Qed.

End WrapperFacts.

(** X9: the wrapper adds the attribution and nothing else: registering
    [onReport] through the attribution-enabled [onTTFB] has the same effect,
    on the store, on the caller's state and on the history of reports, as
    registering it with the unattributed [onTTFB] on a page whose measured
    metrics already carry the attribution [attributeTTFB] computes. *)
Theorem onTTFB_as_unattributed
    (U : Type) (measured : option ReportOpts -> list Metric.t)
    (onReport : UserCallback U) (opts : option ReportOpts) (w : World U) :
  onTTFB measured onReport opts w
  = unattributedOnTTFB (fun o => map attributeTTFB (measured o))
      (call onReport) opts w.
Proof.
  unfold onTTFB, unattributedOnTTFB. apply dispatch_attributed_cycles.
Qed.
